(** * A shallow embedding of the Telegram hook for logrus (telegramhook.go)

    The hook is modelled single-threaded: the read/write mutex only
    serialises accesses to the configuration fields, so every accessor is a
    plain field read.  Go strings are Rocq [string]s, Go [error]s are modelled
    by their [Error()] text ([None] stands for [nil]), and a Go map is a
    [gmap] whose iteration order is an explicit argument: any enumeration of
    the map's bindings (Go randomises it on every [range]). *)

From Stdlib Require Import String Ascii List Permutation ZArith.
From stdpp Require Import base gmap strings list.
Import ListNotations.

Local Open Scope string_scope.

(** ** Characters and small string helpers *)

Definition chr (n : nat) : ascii := Ascii.ascii_of_nat n.
Definition str1 (c : ascii) : string := String c EmptyString.

Definition NL : string := str1 (chr 10).
Definition TAB : string := str1 (chr 9).
Definition DQ : ascii := chr 34.
Definition BSL : ascii := chr 92.

(** [strings.Join([]string{a, b}, sep)] *)
Definition join2 (a sep b : string) : string := a +:+ sep +:+ b.

(** Whether [p] is a prefix of [s]. *)
Fixpoint is_prefix (p s : string) : bool :=
  match p, s with
  | EmptyString, _ => true
  | String c p', String d s' => if ascii_dec c d then is_prefix p' s' else false
  | String _ _, EmptyString => false
  end.

(** [strings.Contains(s, p)] *)
Fixpoint contains (p s : string) : bool :=
  is_prefix p s ||
  match s with
  | EmptyString => false
  | String _ s' => contains p s'
  end.

(** Decimal digits of a natural number ([strconv] / the [%d] verb). *)
Definition digit_char (d : N) : ascii := chr (48 + N.to_nat d).

Fixpoint N_digits (fuel : nat) (n : N) (acc : string) : string :=
  match fuel with
  | O => acc
  | S f =>
      let acc' := String (digit_char (n mod 10)%N) acc in
      if (n / 10 =? 0)%N then acc' else N_digits f (n / 10)%N acc'
  end.

Definition N_to_dec (n : N) : string := N_digits (S (N.size_nat n)) n "".

(** [fmt.Sprintf("%d", z)] for a Go [int]. *)
Definition itoa (z : Z) : string :=
  if (z <? 0)%Z then "-" +:+ N_to_dec (Z.to_N (- z)) else N_to_dec (Z.to_N z).

(** ** The logrus data model used by the hook

    [logrus.Level] is a [uint32]; the constants and [AllLevels] are the
    ones of the logrus package (PanicLevel = 0 up to TraceLevel = 6). *)
Module logrus.
Definition Level := N.
Definition PanicLevel : Level := 0%N.
Definition FatalLevel : Level := 1%N.
Definition ErrorLevel : Level := 2%N.
Definition WarnLevel : Level := 3%N.
Definition InfoLevel : Level := 4%N.
Definition DebugLevel : Level := 5%N.
Definition TraceLevel : Level := 6%N.

Definition AllLevels : list Level :=
  [PanicLevel; FatalLevel; ErrorLevel; WarnLevel; InfoLevel; DebugLevel; TraceLevel].

(** The dynamic values stored in [logrus.Fields] ([map[string]interface{}]),
    restricted to the kinds a caller typically stores. *)
Inductive Value :=
| VString (s : string)
| VInt (z : Z)
| VBool (b : bool)
| VError (msg : string).

(** [logrus.Entry] as far as the hook reads it. *)
Record Entry := mkEntry {
  Level_ : Level;
  Message : string;
  Data : gmap string Value
}.
End logrus.

(** [fmt.Sprintf("%+v", v)] on the modelled values; an error prints its
    [Error()] text. *)
Definition render_value (v : logrus.Value) : string :=
  match v with
  | logrus.VString s => s
  | logrus.VInt z => itoa z
  | logrus.VBool b => if b then "true" else "false"
  | logrus.VError m => m
  end.

(** A [range] over a Go map visits every binding once, in an unspecified
    order: [iter] is one such visit order of [m]. *)
Definition map_iter {V} (m : gmap string V) (iter : list (string * V)) : Prop :=
  iter ≡ₚ map_to_list m.

(** ** html.EscapeString and html.UnescapeString *)

(** The replacer of [html.EscapeString]:
    ampersand -> [&amp;], apostrophe -> [&#39;], [<] -> [&lt;], [>] -> [&gt;],
    double quote -> [&#34;]. *)
Definition escape_char (c : ascii) : string :=
  if ascii_dec c "&"%char then "&amp;"
  else if ascii_dec c "'"%char then "&#39;"
  else if ascii_dec c "<"%char then "&lt;"
  else if ascii_dec c ">"%char then "&gt;"
  else if ascii_dec c DQ then "&#34;"
  else str1 c.

Fixpoint EscapeString (s : string) : string :=
  match s with
  | EmptyString => EmptyString
  | String c s' => escape_char c +:+ EscapeString s'
  end.

(** [html.UnescapeString] on the entities [amp], [lt], [gt], [quot], [apos]
    and the numeric forms [#39] and [#34], each terminated by [;]; any other
    [&] is kept as text.  The library decodes more (the rest of the HTML
    entity table, other numeric references, legacy forms without [;]); none
    of these forms occurs in the output of [EscapeString]. *)
Fixpoint UnescapeString (s : string) : string :=
  match s with
  | EmptyString => EmptyString
  | String c s' =>
      if ascii_dec c "&"%char then
        match s' with
        | String "a" (String "m" (String "p" (String ";" r))) => String "&" (UnescapeString r)
        | String "l" (String "t" (String ";" r)) => String "<" (UnescapeString r)
        | String "g" (String "t" (String ";" r)) => String ">" (UnescapeString r)
        | String "#" (String "3" (String "9" (String ";" r))) => String "'" (UnescapeString r)
        | String "#" (String "3" (String "4" (String ";" r))) => String DQ (UnescapeString r)
        | String "q" (String "u" (String "o" (String "t" (String ";" r)))) => String DQ (UnescapeString r)
        | String "a" (String "p" (String "o" (String "s" (String ";" r)))) => String "'" (UnescapeString r)
        | _ => String c (UnescapeString s')
        end
      else String c (UnescapeString s')
  end.

(** ** fmt: formatting a string with no arguments

    [fmt.Errorf(msg)] uses [msg] as a format string with no operands.  Go's
    [doPrintf] copies text, and on [%] reads the flags [#0+- ], a decimal
    width, a [.] and a decimal precision, then the verb: [%%] prints [%],
    any other verb prints [%!v(MISSING)], and a format ending before its
    verb prints [%!(NOVERB)].  The [*] width and the [[n]] argument index
    forms are read here as verbs. *)
Definition is_digit (c : ascii) : bool :=
  let n := nat_of_ascii c in (48 <=? n)%nat && (n <=? 57)%nat.

Definition is_fmt_flag (c : ascii) : bool :=
  match c with
  | "#"%char | "0"%char | "+"%char | "-"%char | " "%char => true
  | _ => false
  end.

(** What a verb prints when its operand is missing. *)
Definition verb_text (c : ascii) : string :=
  if ascii_dec c "%"%char then "%" else "%!" +:+ str1 c +:+ "(MISSING)".

(** [mode]: 0 plain text, 1 after [%] (flags), 2 in the width, 3 in the
    precision. *)
Fixpoint sprintf_noargs (mode : nat) (s : string) : string :=
  match s with
  | EmptyString => match mode with O => EmptyString | _ => "%!(NOVERB)" end
  | String c s' =>
      match mode with
      | O => if ascii_dec c "%"%char then sprintf_noargs 1 s'
             else String c (sprintf_noargs 0 s')
      | 1 => if is_fmt_flag c then sprintf_noargs 1 s'
             else if is_digit c then sprintf_noargs 2 s'
             else if ascii_dec c "."%char then sprintf_noargs 3 s'
             else verb_text c +:+ sprintf_noargs 0 s'
      | 2 => if is_digit c then sprintf_noargs 2 s'
             else if ascii_dec c "."%char then sprintf_noargs 3 s'
             else verb_text c +:+ sprintf_noargs 0 s'
      | _ => if is_digit c then sprintf_noargs 3 s'
             else verb_text c +:+ sprintf_noargs 0 s'
      end
  end.

(** [fmt.Errorf(format)] with no operands, as an error text. *)
Definition Errorf_noargs (format : string) : string := sprintf_noargs 0 format.

(** ** net/url and net/http errors *)

Definition hex_char (d : nat) : ascii :=
  if (d <? 10)%nat then chr (48 + d) else chr (87 + d).

(** [strconv.Quote] byte by byte on ASCII ([%q] of a string); bytes from
    0x80 up are kept, which is exact for valid printable UTF-8. *)
Definition quote_char (c : ascii) : string :=
  let n := nat_of_ascii c in
  if ascii_dec c DQ then String BSL (str1 DQ)
  else if ascii_dec c BSL then String BSL (str1 BSL)
  else if (n =? 7)%nat then String BSL "a"
  else if (n =? 8)%nat then String BSL "b"
  else if (n =? 12)%nat then String BSL "f"
  else if (n =? 10)%nat then String BSL "n"
  else if (n =? 13)%nat then String BSL "r"
  else if (n =? 9)%nat then String BSL "t"
  else if (n =? 11)%nat then String BSL "v"
  else if (n <? 32)%nat || (n =? 127)%nat then
    String BSL (String "x" (String (hex_char (n / 16)) (str1 (hex_char (n mod 16)))))
  else str1 c.

Fixpoint quote_body (s : string) : string :=
  match s with
  | EmptyString => EmptyString
  | String c s' => quote_char c +:+ quote_body s'
  end.

Definition Quote (s : string) : string := String DQ (quote_body s +:+ str1 DQ).

(** The [Error] method of [*url.Error]: [fmt.Sprintf("%s %q: %s", e.Op, e.URL, e.Err)].
    [http.Client] wraps every transport failure in a [url.Error] whose [Op]
    is the method name ([Get], [Post]) and whose [URL] is the request URL
    (only a userinfo password would be redacted). *)
Definition url_Error (op url err : string) : string :=
  op +:+ " " +:+ Quote url +:+ ": " +:+ err.

(** [url.JoinPath(base, elem)] for a base URL whose path has no trailing
    slash and no dot segments and whose characters need no escaping: the
    element is appended after one [/].  This is the shape of [ApiEndpoint]
    for a bot token made of letters, digits, [:], [-] and [_]. *)
Definition JoinPath (base elem : string) : string := base +:+ "/" +:+ elem.

(** ** The Telegram API messages *)

Record apiRequest := mkApiRequest {
  req_ChatId : string;
  req_ThreadId : string;
  req_Text : string;
  req_ParseMode : string
}.

(** [apiResponse]; [Result] is kept as the raw JSON text of the field. *)
Record apiResponse := mkApiResponse {
  Ok : bool;
  ErrorCode : option Z;
  Desc : option string;
  Result : option string
}.

(** What [json.NewDecoder(res.Body).Decode(&apiRes)] yields. *)
Inductive Decoded :=
| DecodeErr (err : string)
| DecodeOk (r : apiResponse).

(** What the HTTP round trip yields: a transport error (before the
    [url.Error] wrapping) or a response body. *)
Inductive RoundTrip :=
| TransportErr (err : string)
| Body (d : Decoded).

Inductive Method := GET | POST.

(** [*http.Client]: its [Timeout] and the behaviour of the network and the
    server behind it, as a function of method, URL and JSON request body
    ([json.Marshal] of an [apiRequest] made of strings never fails). *)
Record Client := mkClient {
  Timeout : Z;
  Do : Method -> string -> option apiRequest -> RoundTrip
}.

(** [client.Get(url)] followed by decoding the body. *)
Definition client_Get (c : Client) (url : string) : option string + apiResponse :=
  match Do c GET url None with
  | TransportErr e => inl (Some (url_Error "Get" url e))
  | Body (DecodeErr e) => inl (Some e)
  | Body (DecodeOk r) => inr r
  end.

(** ** TelegramHook *)

Record TelegramHook := mkTelegramHook {
  client : Client;
  appName : string;
  authToken : string;
  chatId : string;
  threadId : string;
  level : logrus.Level;
  async : bool
}.

Definition AppName (h : TelegramHook) : string := appName h.
Definition AuthToken (h : TelegramHook) : string := authToken h.
Definition ChatId (h : TelegramHook) : string := chatId h.
Definition ThreadId (h : TelegramHook) : string := threadId h.
Definition Level (h : TelegramHook) : logrus.Level := level h.
Definition Async (h : TelegramHook) : bool := async h.

Definition SetAppName (x : string) (h : TelegramHook) : TelegramHook :=
  {| client := client h; appName := x; authToken := authToken h; chatId := chatId h;
     threadId := threadId h; level := level h; async := async h |}.
Definition SetLevel (x : logrus.Level) (h : TelegramHook) : TelegramHook :=
  {| client := client h; appName := appName h; authToken := authToken h; chatId := chatId h;
     threadId := threadId h; level := x; async := async h |}.
Definition SetAsync (x : bool) (h : TelegramHook) : TelegramHook :=
  {| client := client h; appName := appName h; authToken := authToken h; chatId := chatId h;
     threadId := threadId h; level := level h; async := x |}.

(** [ApiEndpoint]: [fmt.Sprintf("https://api.telegram.org/bot%s", h.authToken)] *)
Definition ApiEndpoint (h : TelegramHook) : string :=
  "https://api.telegram.org/bot" +:+ authToken h.

(** [Option] is a function on a [*TelegramHook]. *)
Definition Option := TelegramHook -> TelegramHook.

Definition WithAsync (b : bool) : Option := SetAsync b.

(** [WithTimeout] sets the timeout of the client the hook points to (in Go
    the [*http.Client] is shared with the caller). *)
Definition WithTimeout (timeout : Z) : Option := fun h =>
  if (0 <? timeout)%Z then
    {| client := mkClient timeout (Do (client h)); appName := appName h;
       authToken := authToken h; chatId := chatId h; threadId := threadId h;
       level := level h; async := async h |}
  else h.

Definition WithLevel (l : logrus.Level) : Option := SetLevel l.

(** [Levels]: [logrus.AllLevels[:h.level+1]].  The sum is [uint32]
    arithmetic; a bound beyond the length 7 of [AllLevels] is a runtime
    panic ([None]). *)
Definition Levels (h : TelegramHook) : option (list logrus.Level) :=
  let n := ((level h + 1) mod 2 ^ 32)%N in
  if (n <=? 7)%N then Some (firstn (N.to_nat n) logrus.AllLevels) else None.

(** ** createMessage *)

(** The [switch entry.Level] of [createMessage]; it has no default case. *)
Definition level_label (l : logrus.Level) : string :=
  if (l =? logrus.PanicLevel)%N then "<b>PANIC</b>"
  else if (l =? logrus.FatalLevel)%N then "<b>FATAL</b>"
  else if (l =? logrus.ErrorLevel)%N then "<b>ERROR</b>"
  else if (l =? logrus.WarnLevel)%N then "<b>WARNING</b>"
  else if (l =? logrus.InfoLevel)%N then "<b>INFO</b>"
  else if (l =? logrus.DebugLevel)%N then "<b>DEBUG</b>"
  else "".

(** One loop step: [html.EscapeString(fmt.Sprintf("\t%s: %+v", k, v))]. *)
Definition field_text (kv : string * logrus.Value) : string :=
  EscapeString (TAB +:+ kv.1 +:+ ": " +:+ render_value kv.2).

(** [createMessage], with [iter] the order in which [range entry.Data]
    visits the fields. *)
Definition createMessage (h : TelegramHook) (entry : logrus.Entry)
    (iter : list (string * logrus.Value)) : string :=
  let msg := level_label (logrus.Level_ entry) in
  let msg := join2 msg "@" (AppName h) in
  let msg := join2 msg " - " (logrus.Message entry) in
  if (0 <? size (logrus.Data entry))%nat then
    let msg := join2 msg NL "<pre>" in
    let msg := fold_left (fun m kv => join2 m NL (field_text kv)) iter msg in
    join2 msg NL "</pre>"
  else msg.

(** ** Talking to the API *)

(** The text built from a response with [ok = false], shared by
    [verifyToken] and [sendMessage]. *)
Definition api_error_msg (r : apiResponse) : string :=
  let msg := "Received error response from Telegram API" in
  let msg := match ErrorCode r with
             | Some c => msg +:+ " (error code " +:+ itoa c +:+ ")"
             | None => msg
             end in
  match Desc r with
  | Some d => msg +:+ ": " +:+ d
  | None => msg
  end.

(** [sendMessage] returns its error and the text it writes to [os.Stderr]. *)
Definition sendMessage (h : TelegramHook) (msg : string) : option string * list string :=
  let apiReq := mkApiRequest (ChatId h) (ThreadId h) msg "HTML" in
  let endpoint := JoinPath (ApiEndpoint h) "sendMessage" in
  match Do (client h) POST endpoint (Some apiReq) with
  | TransportErr e =>
      let err := url_Error "Post" endpoint e in
      (Some err, ["Encountered error when issuing request to Telegram API, " +:+ err])
  | Body (DecodeErr e) => (Some e, [])
  | Body (DecodeOk r) =>
      if Ok r then (None, []) else (Some (Errorf_noargs (api_error_msg r)), [])
  end.

(** The observable outcome of [Fire]: the returned error, what the calling
    goroutine wrote to [os.Stderr], and the messages handed to detached
    [go h.sendMessage(msg)] goroutines (whose results are dropped). *)
Record FireResult := mkFireResult {
  ret : option string;
  stderr : list string;
  spawned : list string
}.

Definition Fire (h : TelegramHook) (entry : logrus.Entry)
    (iter : list (string * logrus.Value)) : FireResult :=
  let msg := createMessage h entry iter in
  if Async h then mkFireResult None [] [msg]
  else
    match sendMessage h msg with
    | (Some err, out) => mkFireResult (Some err) (out ++ ["Unable to send message, " +:+ err]) []
    | (None, out) => mkFireResult None out []
    end.

(** What a detached goroutine of [Fire] does: it runs [sendMessage] and its
    error is discarded. *)
Definition run_spawned (h : TelegramHook) (msg : string) : list string :=
  (sendMessage h msg).2.

Section Construction.
(** [json.MarshalIndent(apiRes, "", "\t")], used only to append the
    response to the error text. *)
Variable MarshalIndent : apiResponse -> string.

Definition verifyToken (h : TelegramHook) : option string :=
  let endpoint := JoinPath (ApiEndpoint h) "getMe" in
  match client_Get (client h) endpoint with
  | inl err => err
  | inr apiRes =>
      if Ok apiRes then None
      else Some (api_error_msg apiRes +:+ NL +:+ MarshalIndent apiRes)
  end.

Definition apply_options (options : list Option) (h : TelegramHook) : TelegramHook :=
  fold_left (fun h opt => opt h) options h.

(** The struct literal of [NewTelegramHookWithClient]. *)
Definition initial_hook (appName authToken chatId threadId : string)
    (client : Client) : TelegramHook :=
  {| client := client; appName := appName; authToken := authToken;
     chatId := chatId; threadId := threadId;
     level := logrus.ErrorLevel; async := false |}.

(** [NewTelegramHookWithClient]: [inl h] is [(&h, nil)], [inr err] is
    [(nil, err)]. *)
Definition NewTelegramHookWithClient (appName authToken chatId threadId : string)
    (client : Client) (options : list Option) : TelegramHook + string :=
  let h := initial_hook appName authToken chatId threadId client in
  let h := apply_options options h in
  match verifyToken h with
  | Some err => inr err
  | None => inl h
  end.
End Construction.

(** ** Concrete inputs *)

Definition ok_response : apiResponse := mkApiResponse true None None None.

Definition ok_client : Client := mkClient 0 (fun _ _ _ => Body (DecodeOk ok_response)).

Definition hook0 (appName : string) (lvl : logrus.Level) (async : bool) : TelegramHook :=
  {| client := ok_client; appName := appName; authToken := "123:ABC"; chatId := "42";
     threadId := ""; level := lvl; async := async |}.

Definition entry_svc : logrus.Entry :=
  logrus.mkEntry logrus.ErrorLevel "boom" {[ "n" := logrus.VInt 1 ]}.

Example createMessage_svc :
  createMessage (hook0 "svc" logrus.ErrorLevel false) entry_svc [("n", logrus.VInt 1)]
  = "<b>ERROR</b>@svc - boom" +:+ NL +:+ "<pre>" +:+ NL +:+ TAB +:+ "n: 1" +:+ NL +:+ "</pre>".
Proof. reflexivity. Qed.

Example sprintf_noargs_ex : Errorf_noargs "100%d" = "100%!d(MISSING)".
Proof. reflexivity. Qed.

Example itoa_ex : itoa (-1203) = "-1203".
Proof. reflexivity. Qed.

(** ** Derived views used in the statements *)

(** Position on the ascending severity order trace < debug < info < warn <
    error < fatal < panic (logrus numbers the levels the other way round). *)
Definition severity_rank (l : logrus.Level) : N := (6 - l)%N.

Definition concat_str (l : list string) : string := fold_right String.append "" l.

(** A field line of the [<pre>] block, with the newline that precedes it. *)
Definition field_line (kv : string * logrus.Value) : string := NL +:+ field_text kv.

Definition fields_block (d : gmap string logrus.Value)
    (iter : list (string * logrus.Value)) : string :=
  if (0 <? size d)%nat
  then NL +:+ "<pre>" +:+ concat_str (map field_line iter) +:+ NL +:+ "</pre>"
  else "".

(** ** String lemmas *)

Lemma sapp_nil_l (s : string) : "" +:+ s = s.
Proof. reflexivity. Qed.

Lemma sapp_cons (c : ascii) (s t : string) : String c s +:+ t = String c (s +:+ t).
Proof. reflexivity. Qed.

Lemma sapp_nil_r (s : string) : s +:+ "" = s.
Proof. induction s as [|c s IH]; [reflexivity|]. rewrite sapp_cons, IH. reflexivity. Qed.

Lemma sapp_assoc (a b c : string) : (a +:+ b) +:+ c = a +:+ b +:+ c.
Proof. induction a as [|x a IH]; [reflexivity|]. rewrite !sapp_cons, IH. reflexivity. Qed.

Lemma is_prefix_app (p s : string) : is_prefix p (p +:+ s) = true.
Proof.
  induction p as [|c p IH]; [reflexivity|].
  rewrite sapp_cons. simpl. destruct (ascii_dec c c); [exact IH | congruence].
Qed.

Lemma contains_of_prefix (p s : string) : is_prefix p s = true -> contains p s = true.
Proof. intros H. destruct s; simpl; rewrite H; reflexivity. Qed.

Lemma contains_app_middle (p x y : string) : contains p (x +:+ p +:+ y) = true.
Proof.
  induction x as [|c x IH].
  - rewrite sapp_nil_l. apply contains_of_prefix, is_prefix_app.
  - rewrite sapp_cons. simpl. rewrite IH. apply orb_true_r.
Qed.

(** ** Lemmas about the model *)

Lemma firstn_AllLevels (k : nat) :
  (k <= 7)%nat -> firstn k logrus.AllLevels = map N.of_nat (seq 0 k).
Proof.
  intros Hk. do 8 (destruct k as [|k]; [reflexivity|]). lia.
Qed.

Lemma in_firstn_AllLevels (k : nat) (S : N) :
  (k <= 7)%nat -> In S (firstn k logrus.AllLevels) <-> (S < N.of_nat k)%N.
Proof.
  intros Hk. rewrite firstn_AllLevels by exact Hk. rewrite in_map_iff.
  split.
  - intros [x [<- Hx]]. apply in_seq in Hx. lia.
  - intros HS. exists (N.to_nat S). split; [lia|]. apply in_seq. lia.
Qed.

Lemma fold_field_lines (iter : list (string * logrus.Value)) (m : string) :
  fold_left (fun m kv => join2 m NL (field_text kv)) iter m
  = m +:+ concat_str (map field_line iter).
Proof.
  revert m. induction iter as [|kv iter IH]; intros m; simpl.
  - rewrite sapp_nil_r. reflexivity.
  - rewrite IH. unfold join2, field_line. rewrite !sapp_assoc. reflexivity.
Qed.

Lemma createMessage_shape (h : TelegramHook) (e : logrus.Entry)
    (iter : list (string * logrus.Value)) :
  createMessage h e iter
  = level_label (logrus.Level_ e) +:+ "@" +:+ AppName h +:+ " - "
      +:+ logrus.Message e +:+ fields_block (logrus.Data e) iter.
Proof.
  unfold createMessage, fields_block, join2.
  destruct (0 <? size (logrus.Data e))%nat.
  - rewrite fold_field_lines. rewrite !sapp_assoc. reflexivity.
  - rewrite sapp_nil_r, !sapp_assoc. reflexivity.
Qed.

Lemma level_cases_5 (l : N) :
  (l <= 5)%N -> l = 0%N \/ l = 1%N \/ l = 2%N \/ l = 3%N \/ l = 4%N \/ l = 5%N.
Proof. lia. Qed.

Lemma map_iter_singleton {V} (k : string) (v : V) (iter : list (string * V)) :
  map_iter {[ k := v ]} iter -> iter = [(k, v)].
Proof.
  unfold map_iter. rewrite map_to_list_singleton. intros Hp.
  apply Permutation_length_1_inv. symmetry. exact Hp.
Qed.

(** ** C1: the levels the hook registers for *)

(** C1 (as stated, refuted): the claim that [Levels] accepts a severity S
    iff S is at or below the threshold T on the ascending severity order
    trace < ... < panic fails: with threshold error, panic is accepted
    although it is above error. *)
Lemma C1_counterexample :
  ~ (forall (h : TelegramHook) (S : logrus.Level) (l : list logrus.Level),
        (level h <= 6)%N -> (S <= 6)%N -> Levels h = Some l ->
        (In S l <-> (severity_rank S <= severity_rank (level h))%N)).
Proof.
  intros H.
  destruct (H (hook0 "svc" logrus.ErrorLevel false) logrus.PanicLevel
              [logrus.PanicLevel; logrus.FatalLevel; logrus.ErrorLevel])
    as [Hf _].
  - simpl. unfold logrus.ErrorLevel. lia.
  - unfold logrus.PanicLevel. lia.
  - reflexivity.
  - specialize (Hf (or_introl eq_refl)).
    unfold severity_rank, logrus.PanicLevel, logrus.ErrorLevel in Hf. simpl in Hf. lia.
Qed.

(** C1 (amended): for a threshold T that is one of the seven levels,
    [Levels] returns [AllLevels[:T+1]], the levels from panic down to T:
    a severity S is accepted iff its logrus number is at most T, i.e. iff S
    is at or above T on the ascending severity order. *)
Theorem Levels_from_panic (h : TelegramHook) (Hl : (level h <= 6)%N) :
  exists l, Levels h = Some l /\
    (forall S : logrus.Level, In S l <-> (S <= level h)%N) /\
    (forall S : logrus.Level, (S <= 6)%N ->
       (In S l <-> (severity_rank (level h) <= severity_rank S)%N)).
Proof.
  unfold Levels. rewrite N.mod_small by lia.
  destruct (N.leb_spec (level h + 1) 7) as [H7|H7]; [|lia].
  eexists; split; [reflexivity|].
  assert (Hin : forall S : N,
            In S (firstn (N.to_nat (level h + 1)) logrus.AllLevels) <-> (S <= level h)%N).
  { intros S. rewrite in_firstn_AllLevels by lia. lia. }
  split; [exact Hin|].
  intros S HS. rewrite Hin. unfold severity_rank. lia.
Qed.

Lemma C1_witness :
  (level (hook0 "svc" logrus.ErrorLevel false) <= 6)%N /\
  exists l, Levels (hook0 "svc" logrus.ErrorLevel false) = Some l /\
    (forall S : logrus.Level, In S l <-> (S <= level (hook0 "svc" logrus.ErrorLevel false))%N) /\
    (forall S : logrus.Level, (S <= 6)%N ->
       (In S l <-> (severity_rank (level (hook0 "svc" logrus.ErrorLevel false))
                    <= severity_rank S)%N)).
Proof.
  split.
  - simpl. unfold logrus.ErrorLevel. lia.
  - apply Levels_from_panic. simpl. unfold logrus.ErrorLevel. lia.
Defined.

(** ** C10: defaults of a hook built without options *)

(** C10: a hook constructed with no options has level ErrorLevel, is
    registered for exactly panic, fatal and error, and is synchronous. *)
Theorem New_defaults (MarshalIndent : apiResponse -> string)
    (app tok chat thr : string) (c : Client) (h : TelegramHook)
    (H : NewTelegramHookWithClient MarshalIndent app tok chat thr c [] = inl h) :
  Level h = logrus.ErrorLevel /\
  Levels h = Some [logrus.PanicLevel; logrus.FatalLevel; logrus.ErrorLevel] /\
  Async h = false.
Proof.
  unfold NewTelegramHookWithClient, apply_options in H. simpl in H.
  destruct (verifyToken _ _); inversion H; subst.
  repeat split; reflexivity.
Qed.

Lemma C10_witness :
  NewTelegramHookWithClient (fun _ => "") "svc" "123:ABC" "42" "" ok_client []
    = inl (hook0 "svc" logrus.ErrorLevel false) /\
  Level (hook0 "svc" logrus.ErrorLevel false) = logrus.ErrorLevel /\
  Levels (hook0 "svc" logrus.ErrorLevel false)
    = Some [logrus.PanicLevel; logrus.FatalLevel; logrus.ErrorLevel] /\
  Async (hook0 "svc" logrus.ErrorLevel false) = false.
Proof.
  assert (Hn : NewTelegramHookWithClient (fun _ => "") "svc" "123:ABC" "42" "" ok_client []
               = inl (hook0 "svc" logrus.ErrorLevel false)) by reflexivity.
  split; [exact Hn|].
  exact (New_defaults (fun _ => "") "svc" "123:ABC" "42" "" ok_client _ Hn).
Defined.

(** ** C8: the label of trace *)

(** C8: the label switch has no default case: the label is empty exactly
    for the levels without a case (trace and any other number from 6 up),
    and a trace entry is formatted as [@<appName> - <message>] followed by
    the field block. *)
Theorem trace_label_empty :
  (forall l : logrus.Level, level_label l = "" <-> (6 <= l)%N) /\
  (forall (h : TelegramHook) (m : string) (d : gmap string logrus.Value)
          (iter : list (string * logrus.Value)),
     createMessage h (logrus.mkEntry logrus.TraceLevel m d) iter
     = "@" +:+ AppName h +:+ " - " +:+ m +:+ fields_block d iter).
Proof.
  split.
  - intros l. unfold level_label, logrus.PanicLevel, logrus.FatalLevel, logrus.ErrorLevel,
      logrus.WarnLevel, logrus.InfoLevel, logrus.DebugLevel.
    repeat match goal with
           | |- context [ (?x =? ?k)%N ] =>
               destruct (N.eqb_spec x k); [subst; split; [discriminate | intros Hc; exfalso; lia]|]
           end.
    split; [intros _; lia | reflexivity].
  - intros h m d iter. rewrite createMessage_shape. reflexivity.
Qed.

(** ** C5: asynchronous delivery *)

(** C5: in asynchronous mode [Fire] returns [nil] whatever the client and
    the server do: it writes nothing and only hands the formatted message to
    a detached goroutine, whose error is never returned. *)
Theorem Fire_async_nil (h : TelegramHook) (e : logrus.Entry)
    (iter : list (string * logrus.Value)) (H : Async h = true) :
  ret (Fire h e iter) = None /\ stderr (Fire h e iter) = [] /\
  spawned (Fire h e iter) = [createMessage h e iter].
Proof. unfold Fire. rewrite H. repeat split. Qed.

Lemma C5_witness :
  Async (hook0 "svc" logrus.ErrorLevel true) = true /\
  ret (Fire (hook0 "svc" logrus.ErrorLevel true) entry_svc [("n", logrus.VInt 1)]) = None /\
  stderr (Fire (hook0 "svc" logrus.ErrorLevel true) entry_svc [("n", logrus.VInt 1)]) = [] /\
  spawned (Fire (hook0 "svc" logrus.ErrorLevel true) entry_svc [("n", logrus.VInt 1)])
    = [createMessage (hook0 "svc" logrus.ErrorLevel true) entry_svc [("n", logrus.VInt 1)]].
Proof.
  split; [reflexivity|].
  apply Fire_async_nil. reflexivity.
Defined.

(** ** C3: the header of a message *)

(** C3: for the six levels with a case, the message starts with the bold
    label, [@], the application name, [ - ] and the message text; for the
    scenario (application svc, level error, message boom, fields n = 1)
    the message is the header followed by a [<pre>] block whose only line is
    a tab and [n: 1]. *)
Theorem createMessage_header :
  (forall (h : TelegramHook) (e : logrus.Entry) (iter : list (string * logrus.Value)),
     (logrus.Level_ e <= 5)%N ->
     exists lbl rest,
       level_label (logrus.Level_ e) = "<b>" +:+ lbl +:+ "</b>" /\ lbl <> "" /\
       createMessage h e iter
       = "<b>" +:+ lbl +:+ "</b>@" +:+ AppName h +:+ " - " +:+ logrus.Message e +:+ rest) /\
  (forall (h : TelegramHook) (iter : list (string * logrus.Value)),
     AppName h = "svc" -> map_iter (logrus.Data entry_svc) iter ->
     createMessage h entry_svc iter
     = "<b>ERROR</b>@svc - boom" +:+ NL +:+ "<pre>" +:+ NL +:+ TAB +:+ "n: 1" +:+ NL +:+ "</pre>" /\
     contains "ERROR" (createMessage h entry_svc iter) = true /\
     contains "svc" (createMessage h entry_svc iter) = true /\
     contains "boom" (createMessage h entry_svc iter) = true /\
     contains ("<pre>" +:+ NL +:+ TAB +:+ "n: 1" +:+ NL) (createMessage h entry_svc iter) = true).
Proof.
  split.
  - intros h [lv m d] iter Hl. simpl in Hl |- *.
    rewrite createMessage_shape. simpl.
    destruct (level_cases_5 lv Hl) as [-> | [-> | [-> | [-> | [-> | ->]]]]];
      [exists "PANIC" | exists "FATAL" | exists "ERROR"
      | exists "WARNING" | exists "INFO" | exists "DEBUG"];
      eexists; (split; [reflexivity | split; [discriminate | reflexivity]]).
  - intros h iter Happ Hiter.
    apply map_iter_singleton in Hiter. subst iter.
    assert (Hm : createMessage h entry_svc [("n", logrus.VInt 1)]
                 = "<b>ERROR</b>@svc - boom" +:+ NL +:+ "<pre>" +:+ NL +:+ TAB +:+ "n: 1"
                     +:+ NL +:+ "</pre>").
    { rewrite createMessage_shape, Happ. reflexivity. }
    rewrite Hm. repeat split; vm_compute; reflexivity.
Qed.

Lemma C3_witness :
  ((logrus.Level_ entry_svc <= 5)%N /\
   exists lbl rest,
     level_label (logrus.Level_ entry_svc) = "<b>" +:+ lbl +:+ "</b>" /\ lbl <> "" /\
     createMessage (hook0 "svc" logrus.ErrorLevel false) entry_svc [("n", logrus.VInt 1)]
     = "<b>" +:+ lbl +:+ "</b>@" +:+ AppName (hook0 "svc" logrus.ErrorLevel false) +:+ " - "
         +:+ logrus.Message entry_svc +:+ rest) /\
  (AppName (hook0 "svc" logrus.ErrorLevel false) = "svc" /\
   map_iter (logrus.Data entry_svc) [("n", logrus.VInt 1)] /\
   createMessage (hook0 "svc" logrus.ErrorLevel false) entry_svc [("n", logrus.VInt 1)]
   = "<b>ERROR</b>@svc - boom" +:+ NL +:+ "<pre>" +:+ NL +:+ TAB +:+ "n: 1" +:+ NL +:+ "</pre>").
Proof.
  assert (Hl : (logrus.Level_ entry_svc <= 5)%N) by (simpl; unfold logrus.ErrorLevel; lia).
  assert (Hi : map_iter (logrus.Data entry_svc) [("n", logrus.VInt 1)]).
  { unfold map_iter, entry_svc. simpl. rewrite map_to_list_singleton. reflexivity. }
  split.
  - split; [exact Hl|]. apply (proj1 createMessage_header). exact Hl.
  - split; [reflexivity|]. split; [exact Hi|].
    apply (proj2 createMessage_header); [reflexivity | exact Hi].
Defined.

(** ** C2: field order *)

Definition entry_two : logrus.Entry :=
  logrus.mkEntry logrus.ErrorLevel "boom"
    (<[ "a" := logrus.VInt 1 ]> {[ "b" := logrus.VInt 2 ]}).

(** C2 (as stated, refuted): two calls on the same entry with two fields
    can produce different texts, because the fields are written in the
    order of the map iteration, which Go varies between calls. *)
Lemma C2_counterexample :
  ~ (forall (h : TelegramHook) (e : logrus.Entry) (iter1 iter2 : list (string * logrus.Value)),
        map_iter (logrus.Data e) iter1 -> map_iter (logrus.Data e) iter2 ->
        createMessage h e iter1 = createMessage h e iter2).
Proof.
  intros H.
  pose proof (H (hook0 "svc" logrus.ErrorLevel false) entry_two
                (map_to_list (logrus.Data entry_two))
                (rev (map_to_list (logrus.Data entry_two)))) as Heq.
  assert (H1 : map_iter (logrus.Data entry_two) (map_to_list (logrus.Data entry_two)))
    by (unfold map_iter; reflexivity).
  assert (H2 : map_iter (logrus.Data entry_two) (rev (map_to_list (logrus.Data entry_two)))).
  { unfold map_iter. symmetry. apply Permutation_rev. }
  specialize (Heq H1 H2). vm_compute in Heq. discriminate Heq.
Qed.

Lemma perm_short_eq {A} (l1 l2 l : list A) :
  l1 ≡ₚ l -> l2 ≡ₚ l -> (length l <= 1)%nat -> l1 = l2.
Proof.
  intros H1 H2 Hl. destruct l as [|x [|y l]].
  - symmetry in H1, H2. apply Permutation_nil in H1, H2. congruence.
  - symmetry in H1, H2. apply Permutation_length_1_inv in H1, H2. congruence.
  - simpl in Hl. lia.
Qed.

(** C2 (amended): the text is the same on every call for an entry with at
    most one field; otherwise every call writes the same header and the same
    field lines, but the lines come in the map iteration order of that call,
    so two calls agree up to the order of the lines. *)
Theorem createMessage_fields_order (h : TelegramHook) (e : logrus.Entry)
    (iter1 iter2 : list (string * logrus.Value))
    (H1 : map_iter (logrus.Data e) iter1) (H2 : map_iter (logrus.Data e) iter2) :
  ((size (logrus.Data e) <= 1)%nat -> createMessage h e iter1 = createMessage h e iter2) /\
  map field_line iter1 ≡ₚ map field_line iter2 /\
  exists pre,
    createMessage h e iter1 = pre +:+ fields_block (logrus.Data e) iter1 /\
    createMessage h e iter2 = pre +:+ fields_block (logrus.Data e) iter2.
Proof.
  split; [|split].
  - intros Hs. f_equal. apply (perm_short_eq _ _ _ H1 H2).
    rewrite length_map_to_list. exact Hs.
  - apply Permutation_map. unfold map_iter in *. rewrite H1, H2. reflexivity.
  - eexists. split; rewrite createMessage_shape, <- !sapp_assoc; reflexivity.
Qed.

Lemma C2_witness :
  map_iter (logrus.Data entry_two) (map_to_list (logrus.Data entry_two)) /\
  map_iter (logrus.Data entry_two) (rev (map_to_list (logrus.Data entry_two))) /\
  map field_line (map_to_list (logrus.Data entry_two))
    ≡ₚ map field_line (rev (map_to_list (logrus.Data entry_two))).
Proof.
  assert (H1 : map_iter (logrus.Data entry_two) (map_to_list (logrus.Data entry_two)))
    by (unfold map_iter; reflexivity).
  assert (H2 : map_iter (logrus.Data entry_two) (rev (map_to_list (logrus.Data entry_two)))).
  { unfold map_iter. symmetry. apply Permutation_rev. }
  split; [exact H1|]. split; [exact H2|].
  exact (proj1 (proj2 (createMessage_fields_order (hook0 "svc" logrus.ErrorLevel false)
                          entry_two _ _ H1 H2))).
Defined.

(** ** C4: escaping of the field lines *)

Lemma EscapeString_app (a b : string) :
  EscapeString (a +:+ b) = EscapeString a +:+ EscapeString b.
Proof.
  induction a as [|c a IH]; [reflexivity|].
  rewrite sapp_cons. simpl. rewrite IH, sapp_assoc. reflexivity.
Qed.

Lemma contains_char_nil (c : ascii) : contains (str1 c) "" = false.
Proof. reflexivity. Qed.

Lemma contains_char_app (c : ascii) (a b : string) :
  contains (str1 c) (a +:+ b) = contains (str1 c) a || contains (str1 c) b.
Proof.
  induction a as [|x a IH]; [reflexivity|].
  rewrite sapp_cons. simpl. rewrite IH.
  destruct (ascii_dec c x); reflexivity.
Qed.

Lemma escape_char_no_angle (c x : ascii) :
  (x = "<"%char \/ x = ">"%char) -> contains (str1 x) (escape_char c) = false.
Proof.
  intros Hx. unfold escape_char.
  destruct (ascii_dec c "&"); [destruct Hx as [-> | ->]; reflexivity|].
  destruct (ascii_dec c "'"); [destruct Hx as [-> | ->]; reflexivity|].
  destruct (ascii_dec c "<"); [destruct Hx as [-> | ->]; reflexivity|].
  destruct (ascii_dec c ">"); [destruct Hx as [-> | ->]; reflexivity|].
  destruct (ascii_dec c DQ); [destruct Hx as [-> | ->]; reflexivity|].
  simpl. destruct (ascii_dec x c); [destruct Hx; congruence | reflexivity].
Qed.

Lemma EscapeString_no_angle (s : string) (x : ascii) :
  (x = "<"%char \/ x = ">"%char) -> contains (str1 x) (EscapeString s) = false.
Proof.
  intros Hx. induction s as [|c s IH]; [reflexivity|].
  simpl. rewrite contains_char_app, IH, escape_char_no_angle by exact Hx. reflexivity.
Qed.

Lemma Unescape_Escape (s : string) : UnescapeString (EscapeString s) = s.
Proof.
  induction s as [|c s IH]; [reflexivity|].
  simpl EscapeString. unfold escape_char.
  destruct (ascii_dec c "&") as [->|H1];
    [rewrite !sapp_cons, sapp_nil_l; simpl; rewrite IH; reflexivity|].
  destruct (ascii_dec c "'") as [->|H2];
    [rewrite !sapp_cons, sapp_nil_l; simpl; rewrite IH; reflexivity|].
  destruct (ascii_dec c "<") as [->|H3];
    [rewrite !sapp_cons, sapp_nil_l; simpl; rewrite IH; reflexivity|].
  destruct (ascii_dec c ">") as [->|H4];
    [rewrite !sapp_cons, sapp_nil_l; simpl; rewrite IH; reflexivity|].
  destruct (ascii_dec c DQ) as [->|H5];
    [rewrite !sapp_cons, sapp_nil_l; simpl; rewrite IH; reflexivity|].
  unfold str1. rewrite sapp_cons, sapp_nil_l. simpl.
  destruct (ascii_dec c "&"); [contradiction|]. rewrite IH. reflexivity.
Qed.

(** C4: when the entry has fields, the message ends with the [<pre>] block
    of the field lines; the line of a field is the escaped tab, key and
    [: ] followed by the escaped rendering of the value; the escaped value
    has no [<] and no [>] left (an ampersand becomes [&amp;]), and
    unescaping it gives back the rendered value. *)
Theorem field_value_escaped :
  (forall (h : TelegramHook) (e : logrus.Entry) (iter : list (string * logrus.Value)),
     (0 < size (logrus.Data e))%nat ->
     exists pre, createMessage h e iter
       = pre +:+ concat_str (map field_line iter) +:+ NL +:+ "</pre>") /\
  (forall (k : string) (v : logrus.Value),
     field_line (k, v)
     = NL +:+ EscapeString (TAB +:+ k +:+ ": ") +:+ EscapeString (render_value v)) /\
  (forall v : logrus.Value,
     contains "<" (EscapeString (render_value v)) = false /\
     contains ">" (EscapeString (render_value v)) = false /\
     UnescapeString (EscapeString (render_value v)) = render_value v) /\
  EscapeString "&" = "&amp;" /\ EscapeString "<" = "&lt;" /\ EscapeString ">" = "&gt;".
Proof.
  split; [|split; [|split]].
  - intros h e iter Hs. rewrite createMessage_shape. unfold fields_block.
    apply Nat.ltb_lt in Hs. rewrite Hs.
    eexists. rewrite <- !sapp_assoc. reflexivity.
  - intros k v. unfold field_line, field_text. simpl fst. simpl snd.
    rewrite !EscapeString_app, !sapp_assoc. reflexivity.
  - intros v. split; [|split].
    + apply (EscapeString_no_angle _ "<"). left. reflexivity.
    + apply (EscapeString_no_angle _ ">"). right. reflexivity.
    + apply Unescape_Escape.
  - repeat split.
Qed.

Lemma C4_witness :
  (0 < size (logrus.Data entry_svc))%nat /\
  exists pre, createMessage (hook0 "svc" logrus.ErrorLevel false) entry_svc [("n", logrus.VInt 1)]
    = pre +:+ concat_str (map field_line [("n", logrus.VInt 1)]) +:+ NL +:+ "</pre>".
Proof.
  assert (Hs : (0 < size (logrus.Data entry_svc))%nat).
  { unfold entry_svc. simpl. rewrite map_size_singleton. lia. }
  split; [exact Hs|].
  apply (proj1 field_value_escaped). exact Hs.
Defined.

(** ** C6: synchronous delivery of a rejected message *)

(** A server that accepts the token and rejects every message with code
    400 and a description that contains a percent sign. *)
Definition percent_client : Client :=
  mkClient 0 (fun m _ _ =>
    match m with
    | GET => Body (DecodeOk ok_response)
    | POST => Body (DecodeOk (mkApiResponse false (Some 400%Z) (Some "100%d") None))
    end).

Definition hook_percent : TelegramHook :=
  {| client := percent_client; appName := "svc"; authToken := "123:ABC"; chatId := "42";
     threadId := ""; level := logrus.ErrorLevel; async := false |}.

(** C6 (code bug, evaluated at the failing input): in synchronous mode a
    response with ok = false, code 400 and description [100%d] makes [Fire]
    return an error that contains the code but not the description: the
    text built by [sendMessage] is passed to [fmt.Errorf] as a format
    string, which turns [%d] into [%!d(MISSING)]. *)
Theorem Fire_sync_percent_description :
  ret (Fire hook_percent entry_svc [("n", logrus.VInt 1)])
    = Some "Received error response from Telegram API (error code 400): 100%!d(MISSING)" /\
  contains "400" (api_error_msg (mkApiResponse false (Some 400%Z) (Some "100%d") None)) = true /\
  contains "100%d" (api_error_msg (mkApiResponse false (Some 400%Z) (Some "100%d") None)) = true /\
  contains "100%d"
    ("Received error response from Telegram API (error code 400): 100%!d(MISSING)") = false /\
  stderr (Fire hook_percent entry_svc [("n", logrus.VInt 1)])
    = ["Unable to send message, Received error response from Telegram API (error code 400): 100%!d(MISSING)"].
Proof. vm_compute. repeat split. Qed.

(** ** C7: construction fails when the token check fails *)

(** C7: construction returns the error of [verifyToken], and no hook, when
    the check fails, and the configured hook when it succeeds; a transport
    error, a decoding error and a response with ok = false all fail it, the
    last one with the text [Received error response from Telegram API],
    then [ (error code N)] when the code is present, then [: description]
    when the description is present, then a newline and the marshalled
    response. *)
Theorem New_fails_with_verifyToken (MarshalIndent : apiResponse -> string)
    (app tok chat thr : string) (c : Client) (opts : list Option) :
  (forall err, verifyToken MarshalIndent
                 (apply_options opts (initial_hook app tok chat thr c)) = Some err ->
     NewTelegramHookWithClient MarshalIndent app tok chat thr c opts = inr err) /\
  (verifyToken MarshalIndent (apply_options opts (initial_hook app tok chat thr c)) = None ->
     NewTelegramHookWithClient MarshalIndent app tok chat thr c opts
     = inl (apply_options opts (initial_hook app tok chat thr c))) /\
  (forall e,
     Do (client (apply_options opts (initial_hook app tok chat thr c))) GET
       (JoinPath (ApiEndpoint (apply_options opts (initial_hook app tok chat thr c))) "getMe")
       None = TransportErr e ->
     NewTelegramHookWithClient MarshalIndent app tok chat thr c opts
     = inr (url_Error "Get"
              (JoinPath (ApiEndpoint (apply_options opts (initial_hook app tok chat thr c)))
                 "getMe") e)) /\
  (forall e,
     Do (client (apply_options opts (initial_hook app tok chat thr c))) GET
       (JoinPath (ApiEndpoint (apply_options opts (initial_hook app tok chat thr c))) "getMe")
       None = Body (DecodeErr e) ->
     NewTelegramHookWithClient MarshalIndent app tok chat thr c opts = inr e) /\
  (forall r,
     Do (client (apply_options opts (initial_hook app tok chat thr c))) GET
       (JoinPath (ApiEndpoint (apply_options opts (initial_hook app tok chat thr c))) "getMe")
       None = Body (DecodeOk r) ->
     Ok r = false ->
     NewTelegramHookWithClient MarshalIndent app tok chat thr c opts
     = inr ("Received error response from Telegram API"
            +:+ match ErrorCode r with
                | Some code => " (error code " +:+ itoa code +:+ ")"
                | None => ""
                end
            +:+ match Desc r with
                | Some d => ": " +:+ d
                | None => ""
                end
            +:+ NL +:+ MarshalIndent r)).
Proof.
  unfold NewTelegramHookWithClient.
  set (h := apply_options opts (initial_hook app tok chat thr c)).
  split; [|split; [|split; [|split]]].
  - intros err H. rewrite H. reflexivity.
  - intros H. rewrite H. reflexivity.
  - intros e H. unfold verifyToken, client_Get. rewrite H. reflexivity.
  - intros e H. unfold verifyToken, client_Get. rewrite H. reflexivity.
  - intros r H Hok. unfold verifyToken, client_Get. rewrite H, Hok.
    unfold api_error_msg.
    destruct (ErrorCode r), (Desc r); rewrite ?sapp_nil_l, ?sapp_assoc; reflexivity.
Qed.

Definition refusing_client : Client :=
  mkClient 0 (fun _ _ _ => Body (DecodeOk (mkApiResponse false None None None))).

Lemma C7_witness :
  Do (client (apply_options [] (initial_hook "svc" "" "" "" refusing_client))) GET
    (JoinPath (ApiEndpoint (apply_options [] (initial_hook "svc" "" "" "" refusing_client)))
       "getMe") None = Body (DecodeOk (mkApiResponse false None None None)) /\
  Ok (mkApiResponse false None None None) = false /\
  NewTelegramHookWithClient (fun _ => "{}") "svc" "" "" "" refusing_client []
    = inr ("Received error response from Telegram API" +:+ "" +:+ "" +:+ NL +:+ "{}").
Proof.
  split; [reflexivity|]. split; [reflexivity|].
  exact (proj2 (proj2 (proj2 (proj2
           (New_fails_with_verifyToken (fun _ => "{}") "svc" "" "" "" refusing_client []))))
           _ eq_refl eq_refl).
Defined.

(** ** C9: the token in transport errors *)

(** Characters of a Telegram bot token: letters, digits, [:], [-], [_]. *)
Definition is_token_char (c : ascii) : bool :=
  let n := nat_of_ascii c in
  (((48 <=? n) && (n <=? 58)) || ((65 <=? n) && (n <=? 90)) ||
   ((97 <=? n) && (n <=? 122)) || (n =? 45) || (n =? 95))%nat.

Fixpoint token_safe (s : string) : bool :=
  match s with
  | EmptyString => true
  | String c s' => is_token_char c && token_safe s'
  end.

Lemma quote_char_token (c : ascii) : is_token_char c = true -> quote_char c = str1 c.
Proof.
  destruct c as [[] [] [] [] [] [] [] []]; vm_compute; intros H;
    first [discriminate H | reflexivity].
Qed.

Lemma quote_body_app (a b : string) : quote_body (a +:+ b) = quote_body a +:+ quote_body b.
Proof.
  induction a as [|c a IH]; [reflexivity|].
  rewrite sapp_cons. simpl. rewrite IH, sapp_assoc. reflexivity.
Qed.

Lemma quote_body_token (s : string) : token_safe s = true -> quote_body s = s.
Proof.
  induction s as [|c s IH]; [reflexivity|].
  simpl. intros H. apply andb_true_iff in H as [Hc Hs].
  rewrite quote_char_token by exact Hc. rewrite IH by exact Hs. reflexivity.
Qed.

Lemma is_prefix_app_r (p s y : string) : is_prefix p s = true -> is_prefix p (s +:+ y) = true.
Proof.
  revert s. induction p as [|c p IH]; intros s H; [reflexivity|].
  destruct s as [|d s]; [discriminate H|].
  rewrite sapp_cons. simpl in H |- *. destruct (ascii_dec c d); [|discriminate H].
  apply IH. exact H.
Qed.

Lemma contains_app_r (p x s : string) : contains p s = true -> contains p (x +:+ s) = true.
Proof.
  intros H. induction x as [|c x IH]; [exact H|].
  rewrite sapp_cons. simpl. rewrite IH. apply orb_true_r.
Qed.

Lemma contains_app_l (p s y : string) : contains p s = true -> contains p (s +:+ y) = true.
Proof.
  induction s as [|c s IH]; intros H.
  - destruct p; [destruct y; reflexivity | discriminate H].
  - rewrite sapp_cons. simpl in H |- *. apply orb_true_iff in H as [H|H].
    + pose proof (is_prefix_app_r _ _ y H) as H'. rewrite sapp_cons in H'.
      rewrite H'. reflexivity.
    + rewrite (IH H). apply orb_true_r.
Qed.

Lemma contains_cons (p : string) (c : ascii) (s : string) :
  contains p s = true -> contains p (String c s) = true.
Proof. intros H. simpl. rewrite H. apply orb_true_r. Qed.

Lemma contains_refl (p : string) : contains p p = true.
Proof. apply contains_of_prefix. rewrite <- (sapp_nil_r p) at 2. apply is_prefix_app. Qed.

(** The [url.Error] of a request to an endpoint of the API quotes the URL,
    hence the token. *)
Lemma url_Error_token (tok op elem e : string) :
  token_safe tok = true ->
  contains tok (url_Error op (JoinPath ("https://api.telegram.org/bot" +:+ tok) elem) e) = true.
Proof.
  intros Ht. unfold url_Error, Quote, JoinPath.
  rewrite !quote_body_app, (quote_body_token tok Ht).
  apply contains_app_r, contains_app_r, contains_app_l, contains_cons.
  apply contains_app_l, contains_app_l, contains_app_r, contains_refl.
Qed.

(** A client whose network is down. *)
Definition offline_client : Client :=
  mkClient 0 (fun _ _ _ => TransportErr "dial tcp: lookup api.telegram.org: no such host").

(** C9 (as stated, refuted): with token [123:ABC] and no network, the error
    returned by [verifyToken] contains the token. *)
Lemma C9_counterexample :
  ~ (forall (MarshalIndent : apiResponse -> string) (h : TelegramHook) (err : string),
        AuthToken h <> "" -> verifyToken MarshalIndent h = Some err ->
        contains (AuthToken h) err = false).
Proof.
  intros H.
  specialize (H (fun _ => "") (initial_hook "svc" "123:ABC" "42" "" offline_client)
                ("Get " +:+ Quote "https://api.telegram.org/bot123:ABC/getMe"
                 +:+ ": dial tcp: lookup api.telegram.org: no such host")).
  assert (Hne : AuthToken (initial_hook "svc" "123:ABC" "42" "" offline_client) <> "")
    by discriminate.
  specialize (H Hne eq_refl). vm_compute in H. discriminate H.
Qed.

(** C9 (amended): for a token made only of letters, digits, [:], [-] and
    [_] (the form of Telegram bot tokens), a transport failure of the token
    check or of a delivery yields an error that contains the token, because
    the HTTP client's error quotes the request URL, which embeds it;
    [sendMessage] writes that error to [os.Stderr] in one line, and in
    synchronous mode [Fire] returns it and writes exactly two stderr lines,
    both containing the token. *)
Theorem transport_error_contains_token (MarshalIndent : apiResponse -> string)
    (h : TelegramHook) (e : string) (Ht : token_safe (AuthToken h) = true) :
  (Do (client h) GET (JoinPath (ApiEndpoint h) "getMe") None = TransportErr e ->
   exists err, verifyToken MarshalIndent h = Some err /\ contains (AuthToken h) err = true) /\
  (forall entry iter,
     Do (client h) POST (JoinPath (ApiEndpoint h) "sendMessage")
       (Some (mkApiRequest (ChatId h) (ThreadId h) (createMessage h entry iter) "HTML"))
     = TransportErr e ->
     exists err,
       sendMessage h (createMessage h entry iter)
         = (Some err, ["Encountered error when issuing request to Telegram API, " +:+ err]) /\
       contains (AuthToken h) err = true /\
       (Async h = false ->
        ret (Fire h entry iter) = Some err /\
        stderr (Fire h entry iter)
        = ["Encountered error when issuing request to Telegram API, " +:+ err;
           "Unable to send message, " +:+ err] /\
        contains (AuthToken h)
          ("Encountered error when issuing request to Telegram API, " +:+ err) = true /\
        contains (AuthToken h) ("Unable to send message, " +:+ err) = true)).
Proof.
  assert (Hu : forall op elem, contains (AuthToken h)
                 (url_Error op (JoinPath (ApiEndpoint h) elem) e) = true).
  { intros op elem. apply url_Error_token. exact Ht. }
  split.
  - intros Hd. unfold verifyToken, client_Get. rewrite Hd.
    eexists. split; [reflexivity | apply Hu].
  - intros entry iter Hd. unfold sendMessage. rewrite Hd.
    eexists. split; [reflexivity|]. split; [apply Hu|].
    intros Ha. unfold Fire. rewrite Ha. unfold sendMessage. rewrite Hd.
    split; [reflexivity|]. split; [reflexivity|].
    split; apply contains_app_r, Hu.
Qed.

Lemma C9_witness :
  token_safe (AuthToken (initial_hook "svc" "123:ABC" "42" "" offline_client)) = true /\
  (Do (client (initial_hook "svc" "123:ABC" "42" "" offline_client)) GET
     (JoinPath (ApiEndpoint (initial_hook "svc" "123:ABC" "42" "" offline_client)) "getMe") None
   = TransportErr "dial tcp: lookup api.telegram.org: no such host") /\
  exists err, verifyToken (fun _ => "") (initial_hook "svc" "123:ABC" "42" "" offline_client)
                = Some err /\
              contains "123:ABC" err = true.
Proof.
  assert (Ht : token_safe (AuthToken (initial_hook "svc" "123:ABC" "42" "" offline_client))
               = true) by reflexivity.
  split; [exact Ht|]. split; [reflexivity|].
  exact (proj1 (transport_error_contains_token (fun _ => "")
                  (initial_hook "svc" "123:ABC" "42" "" offline_client) _ Ht) eq_refl).
Defined.

(** * Further code of telegramhook.go *)

(** ** The remaining setters and NewTelegramHook *)

Definition SetAuthToken (x : string) (h : TelegramHook) : TelegramHook :=
  {| client := client h; appName := appName h; authToken := x; chatId := chatId h;
     threadId := threadId h; level := level h; async := async h |}.
Definition SetChatId (x : string) (h : TelegramHook) : TelegramHook :=
  {| client := client h; appName := appName h; authToken := authToken h; chatId := x;
     threadId := threadId h; level := level h; async := async h |}.
Definition SetThreadId (x : string) (h : TelegramHook) : TelegramHook :=
  {| client := client h; appName := appName h; authToken := authToken h; chatId := chatId h;
     threadId := x; level := level h; async := async h |}.

Section DefaultClient.
Variable MarshalIndent : apiResponse -> string.
(** The network reached through Go's default transport. *)
Variable network : Method -> string -> option apiRequest -> RoundTrip.

(** [NewTelegramHook]: a fresh [&http.Client{}], whose [Timeout] is zero
    (no limit). *)
Definition NewTelegramHook (appName authToken chatId threadId : string)
    (options : list Option) : TelegramHook + string :=
  NewTelegramHookWithClient MarshalIndent appName authToken chatId threadId
    (mkClient 0 network) options.
End DefaultClient.

(** The three option constructors, as data, to state facts about any list
    of options a caller passes. *)
Inductive OptionCall :=
| CallWithAsync (b : bool)
| CallWithTimeout (t : Z)
| CallWithLevel (l : logrus.Level).

Definition option_of (o : OptionCall) : Option :=
  match o with
  | CallWithAsync b => WithAsync b
  | CallWithTimeout t => WithTimeout t
  | CallWithLevel l => WithLevel l
  end.

(** The value each setting has after a list of option calls, starting
    from [d]: the last call of that kind wins; a timeout counts only when
    positive. *)
Definition last_async (os : list OptionCall) (d : bool) : bool :=
  fold_left (fun b o => match o with CallWithAsync b' => b' | _ => b end) os d.
Definition last_level (os : list OptionCall) (d : logrus.Level) : logrus.Level :=
  fold_left (fun l o => match o with CallWithLevel l' => l' | _ => l end) os d.
Definition last_timeout (os : list OptionCall) (d : Z) : Z :=
  fold_left (fun t o => match o with
                        | CallWithTimeout t' => if (0 <? t')%Z then t' else t
                        | _ => t
                        end) os d.

(** [s] contains no percent sign. *)
Definition no_percent (s : string) : bool := negb (contains "%" s).

(** ** Options *)

Lemma apply_options_calls (os : list OptionCall) (h : TelegramHook) :
  let h' := apply_options (map option_of os) h in
  appName h' = appName h /\ authToken h' = authToken h /\ chatId h' = chatId h /\
  threadId h' = threadId h /\ Do (client h') = Do (client h) /\
  level h' = last_level os (level h) /\ async h' = last_async os (async h) /\
  Timeout (client h') = last_timeout os (Timeout (client h)).
Proof.
  revert h. induction os as [|o os IH]; intros h; simpl.
  - repeat split.
  - unfold apply_options in IH |- *. simpl.
    destruct (IH (option_of o h)) as (H1 & H2 & H3 & H4 & H5 & H6 & H7 & H8).
    rewrite H1, H2, H3, H4, H5, H6, H7, H8.
    destruct o as [b|t|l]; simpl;
      [repeat split | unfold WithTimeout; destruct (0 <? t)%Z; repeat split | repeat split].
Qed.

(** X1: a hook returned by [NewTelegramHook] keeps the given application
    name, token, chat and thread; its level is that of the last [WithLevel]
    (ErrorLevel without one), it is asynchronous iff the last [WithAsync]
    says so (synchronous without one), and its client timeout is that of
    the last positive [WithTimeout] (zero, no limit, without one). *)
Theorem NewTelegramHook_settings (MarshalIndent : apiResponse -> string)
    (network : Method -> string -> option apiRequest -> RoundTrip)
    (app tok chat thr : string) (os : list OptionCall) (h : TelegramHook)
    (H : NewTelegramHook MarshalIndent network app tok chat thr (map option_of os) = inl h) :
  AppName h = app /\ AuthToken h = tok /\ ChatId h = chat /\ ThreadId h = thr /\
  Level h = last_level os logrus.ErrorLevel /\ Async h = last_async os false /\
  Timeout (client h) = last_timeout os 0.
Proof.
  unfold NewTelegramHook, NewTelegramHookWithClient in H.
  destruct (verifyToken _ _); inversion H; subst.
  destruct (apply_options_calls os (initial_hook app tok chat thr (mkClient 0 network)))
    as (H1 & H2 & H3 & H4 & _ & H6 & H7 & H8).
  unfold AppName, AuthToken, ChatId, ThreadId, Level, Async.
  rewrite H1, H2, H3, H4, H6, H7, H8. repeat split.
Qed.

Definition net_ok : Method -> string -> option apiRequest -> RoundTrip :=
  fun _ _ _ => Body (DecodeOk ok_response).

Lemma X1_witness :
  NewTelegramHook (fun _ => "") net_ok "svc" "123:ABC" "42" ""
    (map option_of [CallWithLevel logrus.WarnLevel; CallWithTimeout 30; CallWithAsync true;
                    CallWithTimeout (-1)])
  = inl {| client := mkClient 30 net_ok; appName := "svc"; authToken := "123:ABC";
           chatId := "42"; threadId := ""; level := logrus.WarnLevel; async := true |} /\
  Level {| client := mkClient 30 net_ok; appName := "svc"; authToken := "123:ABC";
           chatId := "42"; threadId := ""; level := logrus.WarnLevel; async := true |}
  = last_level [CallWithLevel logrus.WarnLevel; CallWithTimeout 30; CallWithAsync true;
                CallWithTimeout (-1)] logrus.ErrorLevel.
Proof.
  assert (H : NewTelegramHook (fun _ => "") net_ok "svc" "123:ABC" "42" ""
    (map option_of [CallWithLevel logrus.WarnLevel; CallWithTimeout 30; CallWithAsync true;
                    CallWithTimeout (-1)])
  = inl {| client := mkClient 30 net_ok; appName := "svc"; authToken := "123:ABC";
           chatId := "42"; threadId := ""; level := logrus.WarnLevel; async := true |})
    by reflexivity.
  split; [exact H|].
  exact (proj1 (proj2 (proj2 (proj2 (proj2
          (NewTelegramHook_settings _ _ _ _ _ _ _ _ H)))))).
Defined.

(** ** Construction succeeds exactly on an accepted token *)

(** X2: [NewTelegramHookWithClient] returns a hook iff the [getMe] request
    of the configured hook is answered with a decodable response whose
    [ok] is true, and the hook it returns is the configured one. *)
Theorem New_succeeds_iff (MarshalIndent : apiResponse -> string)
    (app tok chat thr : string) (c : Client) (opts : list Option) (h : TelegramHook) :
  NewTelegramHookWithClient MarshalIndent app tok chat thr c opts = inl h <->
  h = apply_options opts (initial_hook app tok chat thr c) /\
  exists r, Do (client h) GET (JoinPath (ApiEndpoint h) "getMe") None = Body (DecodeOk r) /\
            Ok r = true.
Proof.
  unfold NewTelegramHookWithClient.
  set (h0 := apply_options opts (initial_hook app tok chat thr c)).
  unfold verifyToken, client_Get.
  split.
  - destruct (Do (client h0) GET (JoinPath (ApiEndpoint h0) "getMe") None)
      as [e|[e|r]] eqn:Hd; try discriminate.
    destruct (Ok r) eqn:Hok; [|discriminate].
    intros Heq. inversion Heq; subst. split; [reflexivity|]. exists r. split; assumption.
  - intros [-> [r [Hd Hok]]]. rewrite Hd, Hok. reflexivity.
Qed.

(** ** Outcomes of sendMessage and Fire *)

(** X3: [sendMessage] posts the text with the hook's chat and thread and
    parse mode HTML to the [sendMessage] endpoint; it returns nil iff the
    response decodes with [ok] true, and it writes to [os.Stderr] only on a
    transport failure, one line; a decoding failure or a rejection by the
    server is returned without any diagnostic (so a detached goroutine of
    an asynchronous [Fire] drops them silently). *)
Theorem sendMessage_outcomes (h : TelegramHook) (msg : string) :
  ((sendMessage h msg).1 = None <->
   exists r, Do (client h) POST (JoinPath (ApiEndpoint h) "sendMessage")
               (Some (mkApiRequest (ChatId h) (ThreadId h) msg "HTML"))
             = Body (DecodeOk r) /\ Ok r = true) /\
  ((sendMessage h msg).2 <> [] <->
   exists e, Do (client h) POST (JoinPath (ApiEndpoint h) "sendMessage")
               (Some (mkApiRequest (ChatId h) (ThreadId h) msg "HTML"))
             = TransportErr e) /\
  length (run_spawned h msg) <= 1.
Proof.
  unfold run_spawned, sendMessage.
  destruct (Do (client h) POST (JoinPath (ApiEndpoint h) "sendMessage")
              (Some (mkApiRequest (ChatId h) (ThreadId h) msg "HTML")))
    as [e|[e|r]] eqn:Hd; simpl.
  - split; [split; [discriminate | intros [r [Hr _]]; discriminate Hr]|].
    split; [split; [intros _; exists e; reflexivity | intros _; discriminate] | lia].
  - split; [split; [discriminate | intros [r [Hr _]]; discriminate Hr]|].
    split; [split; [intros H; contradiction | intros [e' He]; discriminate He] | lia].
  - destruct (Ok r) eqn:Hok; simpl.
    + split; [split; [intros _; exists r; split; [reflexivity | exact Hok] | reflexivity]|].
      split; [split; [intros H; contradiction | intros [e' He]; discriminate He] | lia].
    + split; [split; [discriminate | intros [r' [Hr Hok']]; inversion Hr; congruence]|].
      split; [split; [intros H; contradiction | intros [e' He]; discriminate He] | lia].
Qed.


(** ** Error text of a rejected message *)

Lemma sprintf_noargs_no_percent (s : string) :
  contains "%" s = false -> sprintf_noargs 0 s = s.
Proof.
  induction s as [|c s IH]; intros H; [reflexivity|].
  simpl in H. apply orb_false_iff in H as [Hc Hs].
  simpl. destruct (ascii_dec c "%"%char) as [->|Hne]; [discriminate Hc|].
  rewrite IH by exact Hs. reflexivity.
Qed.

Lemma digit_char_not_percent (d : N) : (d < 10)%N -> digit_char d <> "%"%char.
Proof.
  intros Hd Heq. apply (f_equal nat_of_ascii) in Heq.
  unfold digit_char, chr in Heq. rewrite nat_ascii_embedding in Heq by lia.
  change (nat_of_ascii "%"%char) with 37%nat in Heq. lia.
Qed.

Lemma N_digits_no_percent (fuel : nat) (n : N) (acc : string) :
  contains "%" acc = false -> contains "%" (N_digits fuel n acc) = false.
Proof.
  revert n acc. induction fuel as [|f IH]; intros n acc H; [exact H|].
  cbn [N_digits].
  assert (Hacc : contains "%" (String (digit_char (n mod 10)) acc) = false).
  { change "%" with (str1 "%"%char).
    change (contains (str1 "%") (String (digit_char (n mod 10)) acc))
      with (contains (str1 "%") (str1 (digit_char (n mod 10)) +:+ acc)).
    rewrite contains_char_app. change (str1 "%") with "%". rewrite H, orb_false_r.
    change (contains "%" (str1 (digit_char (n mod 10))))
      with ((if ascii_dec "%"%char (digit_char (n mod 10)) then true else false) || false).
    destruct (ascii_dec "%"%char (digit_char (n mod 10))) as [He|]; [|reflexivity].
    exfalso. apply (digit_char_not_percent (n mod 10)); [apply N.mod_lt; lia | auto]. }
  destruct (n / 10 =? 0)%N; [exact Hacc | apply IH, Hacc].
Qed.

Lemma itoa_no_percent (z : Z) : contains "%" (itoa z) = false.
Proof.
  unfold itoa, N_to_dec. destruct (z <? 0)%Z.
  - change "%" with (str1 "%"%char). rewrite contains_char_app.
    apply N_digits_no_percent. reflexivity.
  - apply N_digits_no_percent. reflexivity.
Qed.

Lemma api_error_msg_no_percent (r : apiResponse) :
  (forall d, Desc r = Some d -> contains "%" d = false) ->
  contains "%" (api_error_msg r) = false.
Proof.
  intros Hd. unfold api_error_msg. change "%" with (str1 "%"%char).
  destruct (ErrorCode r) as [code|], (Desc r) as [d|];
    rewrite ?contains_char_app, ?itoa_no_percent; change (str1 "%"%char) with "%";
    try rewrite (Hd _ eq_refl); reflexivity.
Qed.

(** X5: when the server rejects a message and its description (if any)
    has no percent sign, the error returned by [sendMessage] is exactly the
    composed text [Received error response from Telegram API], then
    [ (error code N)] when a code is present, then [: description] when a
    description is present; nothing is written to [os.Stderr]. *)
Theorem sendMessage_rejected (h : TelegramHook) (msg : string) (r : apiResponse)
    (Hd : Do (client h) POST (JoinPath (ApiEndpoint h) "sendMessage")
            (Some (mkApiRequest (ChatId h) (ThreadId h) msg "HTML")) = Body (DecodeOk r))
    (Hok : Ok r = false)
    (Hpct : forall d, Desc r = Some d -> contains "%" d = false) :
  sendMessage h msg
  = (Some ("Received error response from Telegram API"
           +:+ match ErrorCode r with
               | Some code => " (error code " +:+ itoa code +:+ ")"
               | None => ""
               end
           +:+ match Desc r with
               | Some d => ": " +:+ d
               | None => ""
               end), []).
Proof.
  unfold sendMessage. rewrite Hd, Hok. unfold Errorf_noargs.
  rewrite sprintf_noargs_no_percent by (apply api_error_msg_no_percent; exact Hpct).
  unfold api_error_msg.
  destruct (ErrorCode r), (Desc r); rewrite ?sapp_nil_l, ?sapp_assoc; reflexivity.
Qed.

Definition reject_client : Client :=
  mkClient 0 (fun m _ _ =>
    match m with
    | GET => Body (DecodeOk ok_response)
    | POST => Body (DecodeOk (mkApiResponse false (Some 400%Z)
                                (Some "Bad Request: chat not found") None))
    end).

Definition hook_reject : TelegramHook :=
  {| client := reject_client; appName := "svc"; authToken := "123:ABC"; chatId := "42";
     threadId := ""; level := logrus.ErrorLevel; async := false |}.

Lemma X5_witness :
  sendMessage hook_reject "x"
  = (Some ("Received error response from Telegram API"
           +:+ " (error code " +:+ itoa 400 +:+ ")"
           +:+ ": " +:+ "Bad Request: chat not found"), []).
Proof.
  apply (sendMessage_rejected hook_reject "x"
           (mkApiResponse false (Some 400%Z) (Some "Bad Request: chat not found") None)).
  - reflexivity.
  - reflexivity.
  - intros d Hd. injection Hd as <-. reflexivity.
Defined.

(** ** Shape of the formatted message *)

Lemma field_lines_no_angle (iter : list (string * logrus.Value)) (x : ascii) :
  (x = "<"%char \/ x = ">"%char) -> contains (str1 x) (concat_str (map field_line iter)) = false.
Proof.
  intros Hx. induction iter as [|kv iter IH]; [reflexivity|].
  change (concat_str (map field_line (kv :: iter)))
    with (field_line kv +:+ concat_str (map field_line iter)).
  unfold field_line at 1, field_text. rewrite !contains_char_app, IH.
  rewrite (EscapeString_no_angle _ x Hx).
  destruct Hx as [-> | ->]; reflexivity.
Qed.

(** X7: for an entry with fields, the message is the header, a newline,
    [<pre>], the field lines, a newline and [</pre>], and the field lines
    (keys and values alike) contain no [<] and no [>]: no field can close
    the block or open a tag. *)
Theorem createMessage_pre_block (h : TelegramHook) (e : logrus.Entry)
    (iter : list (string * logrus.Value)) (Hs : (0 < size (logrus.Data e))%nat) :
  exists body,
    createMessage h e iter
    = level_label (logrus.Level_ e) +:+ "@" +:+ AppName h +:+ " - " +:+ logrus.Message e
        +:+ NL +:+ "<pre>" +:+ body +:+ NL +:+ "</pre>" /\
    contains "<" body = false /\ contains ">" body = false.
Proof.
  exists (concat_str (map field_line iter)).
  rewrite createMessage_shape. unfold fields_block.
  apply Nat.ltb_lt in Hs. rewrite Hs.
  split; [reflexivity|]. split.
  - apply (field_lines_no_angle iter "<"). left. reflexivity.
  - apply (field_lines_no_angle iter ">"). right. reflexivity.
Qed.

Definition entry_markup : logrus.Entry :=
  logrus.mkEntry logrus.ErrorLevel "<i>boom</i>"
    {[ "<k>" := logrus.VString "</pre><b>x</b>" ]}.

Lemma X7_witness :
  (0 < size (logrus.Data entry_markup))%nat /\
  exists body,
    createMessage (hook0 "svc" logrus.ErrorLevel false) entry_markup
      [("<k>", logrus.VString "</pre><b>x</b>")]
    = level_label (logrus.Level_ entry_markup) +:+ "@"
        +:+ AppName (hook0 "svc" logrus.ErrorLevel false) +:+ " - "
        +:+ logrus.Message entry_markup
        +:+ NL +:+ "<pre>" +:+ body +:+ NL +:+ "</pre>" /\
    contains "<" body = false /\ contains ">" body = false.
Proof.
  assert (Hs : (0 < size (logrus.Data entry_markup))%nat).
  { unfold entry_markup. simpl. rewrite map_size_singleton. lia. }
  split; [exact Hs|].
  apply createMessage_pre_block. exact Hs.
Defined.

(** X8: the application name and the message text are copied into the
    message verbatim, without HTML escaping (only field lines are
    escaped). *)
Theorem createMessage_verbatim (h : TelegramHook) (e : logrus.Entry)
    (iter : list (string * logrus.Value)) :
  contains (AppName h) (createMessage h e iter) = true /\
  contains (logrus.Message e) (createMessage h e iter) = true.
Proof.
  rewrite createMessage_shape. split.
  - apply contains_app_r, contains_app_r, contains_app_l, contains_refl.
  - apply contains_app_r, contains_app_r, contains_app_r, contains_app_r,
      contains_app_l, contains_refl.
Qed.

(** ** Levels outside the seven logrus levels *)

(** X9: [Levels] on a level number beyond the seven levels: from 7 up to
    2^32 - 2 the slice bound exceeds the length of [AllLevels] and the call
    panics; at 2^32 - 1 the [uint32] sum [level+1] wraps to 0 and the hook
    is registered for no level at all. *)
Theorem Levels_out_of_range (h : TelegramHook) :
  ((7 <= level h < 2 ^ 32 - 1)%N -> Levels h = None) /\
  (level h = (2 ^ 32 - 1)%N -> Levels h = Some []).
Proof.
  unfold Levels. split.
  - intros Hl. rewrite N.mod_small by lia.
    destruct (N.leb_spec (level h + 1) 7); [lia | reflexivity].
  - intros ->. reflexivity.
Qed.

Lemma X9_witness :
  (7 <= level (hook0 "svc" 7%N false) < 2 ^ 32 - 1)%N /\
  Levels (hook0 "svc" 7%N false) = None /\
  level (hook0 "svc" (2 ^ 32 - 1)%N false) = (2 ^ 32 - 1)%N /\
  Levels (hook0 "svc" (2 ^ 32 - 1)%N false) = Some [].
Proof.
  assert (H1 : (7 <= level (hook0 "svc" 7%N false) < 2 ^ 32 - 1)%N) by (simpl; lia).
  split; [exact H1|]. split; [exact (proj1 (Levels_out_of_range _) H1)|].
  split; [reflexivity|].
  exact (proj2 (Levels_out_of_range (hook0 "svc" (2 ^ 32 - 1)%N false)) eq_refl).
Defined.
